(** * pykafka: the [KafkaClient] entry point and the cluster coordinator

    The first part embeds [pykafka/client.py]: the class [KafkaClient], whose
    constructor binds its keyword arguments, creates a [ThreadingHandler] and a
    [Cluster], and keeps the cluster's [brokers] and [topics]; and whose
    [update_cluster] method forwards to [Cluster.update].  Its [__repr__]
    is embedded too.

    [ThreadingHandler] and [Cluster] are imported by [client.py] from sibling
    modules; towards the client they are collaborators, taken here as
    parameters acting on a store of Python objects.  Every call the client
    makes to them is recorded in a log, so that "calls exactly once" is a
    statement about that log.

    The second part is a sequential model of the cluster coordinator behind
    [Cluster], written from the specification: broker registry, topic
    registry, bootstrap, metadata refresh and leader lookup. *)

From Stdlib Require Import ZArith String Ascii List Lia.
From Stdlib Require Import HexString DecimalString.
From stdpp Require Import base option list gmap strings fin_maps.

Local Open Scope string_scope.
Local Open Scope list_scope.

(** ** Python values, objects and the store *)

Definition loc := positive.

(** The values the client handles: [None], strings (or bytes), integers,
    booleans, and references to objects in the store. *)
Inductive pyval : Type :=
  | PyNone
  | PyStr (s : string)
  | PyInt (z : Z)
  | PyBool (b : bool)
  | PyRef (l : loc).

Inductive pyexn : Type :=
  | TypeError
  | AttributeError (attr : string)
  | Raised (name : string).

Inductive outcome (A : Type) : Type :=
  | Returns (a : A)
  | Raises (e : pyexn).
Arguments Returns {A} a.
Arguments Raises {A} e.

(** An object is its attribute dictionary; the store maps references to
    objects.  Two attributes holding the same [PyRef l] alias one object. *)
Abbreviation pyobj := (gmap string pyval).
Abbreviation store := (gmap loc pyobj).

(** [x is not None] *)
Definition is_not_None (v : pyval) : bool :=
  match v with PyNone => false | _ => true end.

(** [o.name], for an object reference [o]: the value the attribute is bound
    to (for a read-only property, the value it returns), [AttributeError]
    when there is none. *)
Definition getattr (h : store) (o : loc) (name : string) : outcome pyval :=
  match h !! o with
  | Some d =>
      match d !! name with
      | Some v => Returns v
      | None => Raises (AttributeError name)
      end
  | None => Raises (AttributeError name)
  end.




(** ** Rendering values as text *)

(** [hex(n)] of an integer: ['0x'] and the lowercase hexadecimal digits,
    after a ['-'] for a negative one. *)
Definition hex (n : Z) : string := HexString.of_Z n.

(** What a replacement field without a format specification, as [{hosts}]
    in a [str.format] template, renders a value to: a text string is itself,
    [None] is ['None'], an integer its decimal digits, a boolean ['True'] or
    ['False']; an object renders itself, through [format_object]. *)
Definition format_field (format_object : loc -> string) (v : pyval) : string :=
  match v with
  | PyNone => "None"
  | PyStr s => s
  | PyInt z => NilZero.string_of_int (Z.to_int z)
  | PyBool true => "True"
  | PyBool false => "False"
  | PyRef l => format_object l
  end.

(** The string [s] does not contain the character [c]. *)
Fixpoint free_of (c : ascii) (s : string) : Prop :=
  match s with
  | EmptyString => True
  | String a s' => a <> c /\ free_of c s'
  end.

(** The two attributes of a class that [__repr__] reads. *)
Record pyclass : Type := {
  __module__ : string;
  __name__ : string
}.

(** ** The collaborators of [client.py] *)

Module Cluster.
(** The arguments of the call [Cluster(hosts, handler, socket_timeout_ms=..,
      offsets_channel_socket_timeout_ms=.., exclude_internal_topics=..,
      source_address=.., zookeeper_hosts=..)] of [client.py], lines 76-84. *)
Record args : Type := Args {
  hosts : pyval;
  handler : pyval;
  socket_timeout_ms : pyval;
  offsets_channel_socket_timeout_ms : pyval;
  exclude_internal_topics : pyval;
  source_address : pyval;
  zookeeper_hosts : pyval
}.
End Cluster.

(** The calls [client.py] makes outside itself. *)
Inductive call : Type :=
  | Call_ThreadingHandler
  | Call_Cluster (a : Cluster.args)
  | Call_method (self : loc) (name : string)
                (args : list pyval) (kwargs : list (string * pyval)).

Record Collaborators : Type := {
  (** [ThreadingHandler()] *)
  ThreadingHandler_new : store -> outcome loc * store;
  (** [Cluster(...)] *)
  Cluster_new : Cluster.args -> store -> outcome loc * store;
  (** [cluster.update] *)
  Cluster_update :
    loc -> list pyval -> list (string * pyval) -> store -> outcome pyval * store
}.

(** ** A state-and-exception monad over the store and the call log *)

Record world : Type := World {
  heap : store;
  calls : list call
}.

Definition M (A : Type) : Type := world -> outcome A * world.

Definition ret {A} (a : A) : M A := fun w => (Returns a, w).

Definition raise {A} (e : pyexn) : M A := fun w => (Raises e, w).

Definition bind {A B} (m : M A) (k : A -> M B) : M B :=
  fun w =>
    match m w with
    | (Returns a, w') => k a w'
    | (Raises e, w') => (Raises e, w')
    end.

Notation "'let*' x ':=' m 'in' k" := (bind m (fun x => k))
  (at level 10, x binder, m at level 100, k at level 200).

(** A call to a collaborator: logged, then run on the store. *)
Definition external {A} (c : call) (f : store -> outcome A * store) : M A :=
  fun w =>
    let '(r, h') := f (heap w) in
    (r, {| heap := h'; calls := calls w ++ [c] |}).

(** An attribute read. *)
Definition read_attr (o : loc) (name : string) : M pyval :=
  fun w => (getattr (heap w) o name, w).

(** ** [class KafkaClient] *)

Module KafkaClient.

(** The parameters of [__init__] after [self], in order, with the default
    of each (lines 41-47). *)
Definition signature : list (string * pyval) :=
  [ ("hosts", PyStr "127.0.0.1:9092");
    ("zookeeper_hosts", PyNone);
    ("socket_timeout_ms", PyInt (30 * 1000));
    ("offsets_channel_socket_timeout_ms", PyInt (10 * 1000));
    ("exclude_internal_topics", PyBool true);
    ("source_address", PyStr "") ].

Record params : Type := Params {
  hosts : pyval;
  zookeeper_hosts : pyval;
  socket_timeout_ms : pyval;
  offsets_channel_socket_timeout_ms : pyval;
  exclude_internal_topics : pyval;
  source_address : pyval
}.

(** Python's binding of a call of the class with positional arguments
    [args] and keyword arguments [kwargs]: positional arguments fill the
    parameters in order; a keyword must name a parameter that no positional
    argument has filled; a parameter left unfilled takes its default.
    Anything else is a [TypeError]. *)
Definition accepts (args : list pyval) (kwargs : gmap string pyval) : bool :=
  bool_decide (length args <= length signature)%nat
  && bool_decide
       (map_Forall (fun k _ => k ∈ drop (length args) signature.*1) kwargs).

Definition bound (args : list pyval) (kwargs : gmap string pyval)
    (i : nat) : pyval :=
  match args !! i with
  | Some v => v
  | None =>
      match signature !! i with
      | Some (name, dflt) => default dflt (kwargs !! name)
      | None => PyNone
      end
  end.

Definition bind_arguments (args : list pyval) (kwargs : gmap string pyval)
    : outcome params :=
  if accepts args kwargs then
    Returns {| hosts := bound args kwargs 0;
               zookeeper_hosts := bound args kwargs 1;
               socket_timeout_ms := bound args kwargs 2;
               offsets_channel_socket_timeout_ms := bound args kwargs 3;
               exclude_internal_topics := bound args kwargs 4;
               source_address := bound args kwargs 5 |}
  else Raises TypeError.

(** The attributes of an instance, as [__init__] sets them. *)
Record t : Type := Object {
  _seed_hosts : pyval;
  _source_address : pyval;
  _socket_timeout_ms : pyval;
  _offsets_channel_socket_timeout_ms : pyval;
  _handler : loc;
  cluster : loc;
  brokers : pyval;
  topics : pyval
}.

Section Methods.
Variable E : Collaborators.

(** The arguments of the call [Cluster(...)] of lines 76-84, given the
    values lines 72-75 have stored. *)
Definition cluster_args (p : params) (source_address_ socket_timeout_ms_
    offsets_channel_socket_timeout_ms_ : pyval) (handler_ : loc)
    : Cluster.args :=
  {| Cluster.hosts := hosts p;
     Cluster.handler := PyRef handler_;
     Cluster.socket_timeout_ms := socket_timeout_ms_;
     Cluster.offsets_channel_socket_timeout_ms :=
       offsets_channel_socket_timeout_ms_;
     Cluster.exclude_internal_topics := exclude_internal_topics p;
     Cluster.source_address := source_address_;
     Cluster.zookeeper_hosts := zookeeper_hosts p |}.

(** [__init__] (lines 71-86). *)
Definition __init__ (p : params) : M t :=
  let seed_hosts :=
    if is_not_None (zookeeper_hosts p) then zookeeper_hosts p else hosts p in
  let source_address_ := source_address p in
  let socket_timeout_ms_ := socket_timeout_ms p in
  let offsets_channel_socket_timeout_ms_ :=
    offsets_channel_socket_timeout_ms p in
  let* handler_ := external Call_ThreadingHandler (ThreadingHandler_new E) in
  let a :=
    cluster_args p source_address_ socket_timeout_ms_
      offsets_channel_socket_timeout_ms_ handler_ in
  let* cluster_ := external (Call_Cluster a) (Cluster_new E a) in
  let* brokers_ := read_attr cluster_ "brokers" in
  let* topics_ := read_attr cluster_ "topics" in
  ret {| _seed_hosts := seed_hosts;
         _source_address := source_address_;
         _socket_timeout_ms := socket_timeout_ms_;
         _offsets_channel_socket_timeout_ms :=
           offsets_channel_socket_timeout_ms_;
         _handler := handler_;
         cluster := cluster_;
         brokers := brokers_;
         topics := topics_ |}.

(** The expression that calls the class with [args] and [kwargs]. *)
Definition new (args : list pyval) (kwargs : gmap string pyval) : M t :=
  match bind_arguments args kwargs with
  | Returns p => __init__ p
  | Raises e => raise e
  end.

(** [update_cluster] (lines 96-102): the value of [self.cluster.update()]
    is dropped and the method returns [None]. *)
Definition update_cluster (self : t) : M pyval :=
  let* _ := external (Call_method (cluster self) "update" [] [])
         (Cluster_update E (cluster self) [] []) in
  ret PyNone.

End Methods.

(** The class itself, for instances that are not of a subclass. *)
Definition class_ : pyclass :=
  {| __module__ := "pykafka.client"; __name__ := "KafkaClient" |}.

(** [__repr__] (lines 88-94), the template
    ["<{module}.{name} at {id_} (hosts={hosts})>"] filled in.  [cls] is
    [self.__class__] and [id_self] is [id(self)]. *)
Definition __repr__ (format_object : loc -> string) (cls : pyclass)
    (id_self : Z) (self : t) : string :=
  let module := __module__ cls in
  let name := __name__ cls in
  let id_ := hex id_self in
  let hosts := format_field format_object (_seed_hosts self) in
  ("<" ++ module ++ "." ++ name ++ " at " ++ id_
   ++ " (hosts=" ++ hosts ++ ")>")%string.

End KafkaClient.

(** ** The cluster coordinator

    [pykafka/cluster.py], which defines the class [Cluster] that [client.py]
    constructs, is not among the sources.  The coordinator is therefore
    modelled from the specification, sequentially: one caller, one call at a
    time, so the in-progress-refresh guard, which only concurrent callers
    can find set, has no part in it.  The network is a parameter [net]: the
    metadata response a broker address gives to a request, or [None] when
    the request fails. *)

Module Coordinator.

(** Modelled from the spec: the errors of the coordinator (section 7,
    source missing) that its operations can end in. *)
Inductive error : Type :=
  | ClusterUnreachable
  | PartitionNotFound
  | UnknownBroker.

(** An operation returns a value or fails with one of these. *)
Inductive result (A : Type) : Type :=
  | Ok (a : A)
  | Err (e : error).
Arguments Ok {A} a.
Arguments Err {A} e.

(** Modelled from the spec: the Connection of [pykafka/cluster.py]'s
    brokers (source missing), "one managed socket to one broker".  [conn_id]
    is the identity of the Connection object. *)
Record Connection : Type := {
  conn_id : nat;
  conn_open : bool
}.

(** Modelled from the spec: the Broker Handle (source missing), after the
    Broker of section 3, "identity (numeric id, host, port); one Connection
    for general requests, one Connection for offset-channel requests; a
    liveness flag". *)
Record BrokerHandle : Type := {
  broker_id : Z;
  broker_host : string;
  broker_port : Z;
  conn : Connection;
  offsets_conn : Connection;
  alive : bool
}.

(** Modelled from the spec: the Partition (source missing) of section 3,
    "partition id; current leader broker id; replica set; in-sync-replica
    set"; the id is the key under which a topic holds it. *)
Record Partition : Type := {
  leader : option Z;
  replicas : list Z;
  isr : list Z
}.

Abbreviation address := (string * Z)%type.
Abbreviation PartitionMap := (gmap Z Partition).

(** Modelled from the spec: the metadata response (source missing), "the
    current broker/partition/leader topology snapshot". *)
Record Metadata : Type := {
  md_brokers : list (Z * address);
  md_topics : list (string * PartitionMap)
}.

(** Modelled from the spec: the state of the class [Cluster] of
    [pykafka/cluster.py] (source missing), after the Cluster state of
    section 3: Broker Registry, Topic Registry, original seed host list.
    Added for the model: a counter for fresh Connection identities and two
    logs, the outbound metadata requests and the number of [update] calls. *)
Record Cluster : Type := {
  brokers : gmap Z BrokerHandle;
  topics : gmap string PartitionMap;
  seed_hosts : list address;
  next_conn : nat;
  requests : list address;
  updates : nat
}.

(** Modelled from the spec: the creation of a Broker Handle by the Broker
    Registry (source missing), "unconnected until first use" (section 4.3),
    with two new Connection objects. *)
Definition new_handle (b : Z * address) (n : nat) : BrokerHandle :=
  {| broker_id := b.1;
     broker_host := b.2.1;
     broker_port := b.2.2;
     conn := {| conn_id := n; conn_open := false |};
     offsets_conn := {| conn_id := S n; conn_open := false |};
     alive := false |}.

(** Modelled from the spec: one step of [reconcile] (source missing), "for
    each broker in the new list not currently tracked, creates and registers
    a new Broker Handle". *)
Definition register (st : gmap Z BrokerHandle * nat) (b : Z * address)
    : gmap Z BrokerHandle * nat :=
  match st.1 !! b.1 with
  | Some _ => st
  | None => (<[b.1 := new_handle b st.2]> st.1, S (S st.2))
  end.

(** Modelled from the spec: [reconcile(broker_list)] of the Broker Registry
    (section 4.3, source missing).  A tracked broker absent from the new list
    is closed and removed, its Connections with it; a broker of the new list
    that is not tracked gets a new handle; brokers present in both are left
    as they are. *)
Definition reconcile (new : list (Z * address))
    (st : gmap Z BrokerHandle * nat) : gmap Z BrokerHandle * nat :=
  let kept := filter (fun kv => kv.1 ∈ new.*1) st.1 in
  foldl register (kept, st.2) new.

(** Modelled from the spec: [update(name, partition_map)] of the Topic
    Registry (section 4.4, source missing), which "replaces the cached
    Topic's partition map wholesale". *)
Definition update_topic (reg : gmap string PartitionMap)
    (t : string * PartitionMap) : gmap string PartitionMap :=
  <[t.1 := t.2]> reg.

(** Modelled from the spec: "the set of Connection objects" of section 8
    (source missing): the Connections the registry's handles hold, by
    identity. *)
Definition connections (c : Cluster) : gset nat :=
  map_fold
    (fun _ h acc =>
       {[ conn_id (conn h) ]} ∪ {[ conn_id (offsets_conn h) ]} ∪ acc)
    ∅ (brokers c).

(** Modelled from the spec: the seed description that [bootstrap()]
    resolves (section 4.5; the constructor of [Cluster] in
    [pykafka/cluster.py], source missing), read off the arguments
    [client.py] constructs the cluster with: the coordination-service
    address "if a coordination-service address was supplied", the static
    host list otherwise. *)
Definition seed_description (a : Cluster.args) : pyval :=
  if is_not_None (Cluster.zookeeper_hosts a)
  then Cluster.zookeeper_hosts a
  else Cluster.hosts a.

(** Modelled from the spec: the Bootstrap host-list provider (section 6,
    an external collaborator, source missing), which "given a seed
    description, returns an ordered list of candidate host:port broker
    addresses; may be a static parse of a comma-separated list or a call to
    an external coordination service". *)
Record HostListProvider : Type := {
  static_parse : pyval -> list address;
  service_lookup : pyval -> list address
}.

(** Modelled from the spec: the resolution of the seed description
    (section 4.5, source missing) into "either a static host:port list, or
    - if a coordination-service address was supplied - a lookup against
    that service for the current broker set". *)
Definition bootstrap_candidates (P : HostListProvider) (a : Cluster.args)
    : list address :=
  if is_not_None (Cluster.zookeeper_hosts a)
  then service_lookup P (seed_description a)
  else static_parse P (seed_description a).

Section Network.
Variable net : address -> option (list string) -> option Metadata.

(** Modelled from the spec: the candidates of a refresh in [Cluster.update]
    (source missing), the known brokers and then "the original seed list"
    (section 4.5). *)
Definition candidates (c : Cluster) : list address :=
  ((fun kv => (broker_host kv.2, broker_port kv.2))
     <$> map_to_list (brokers c)) ++ seed_hosts c.

(** Modelled from the spec: the metadata request of [Cluster.update]
    (source missing), "against any currently reachable broker, falling back
    through the remaining known brokers and finally the original seed list":
    the candidates are asked in order until one answers; the result is the
    requests made and the answer, if any. *)
Fixpoint ask (topics_arg : option (list string)) (cands : list address)
    : list address * option Metadata :=
  match cands with
  | [] => ([], None)
  | a :: rest =>
      match net a topics_arg with
      | Some md => ([a], Some md)
      | None =>
          let r := ask topics_arg rest in (a :: r.1, r.2)
      end
  end.

(** Modelled from the spec: [Cluster.update(topics=None)] (section 4.5,
    source missing).  "On success: reconciles the Broker Registry, updates
    the Topic Registry for the returned topics"; "on total failure: fails
    with ClusterUnreachable and leaves prior state unchanged". *)
Definition update (topics_arg : option (list string)) (c : Cluster)
    : result unit * Cluster :=
  let r := ask topics_arg (candidates c) in
  match r.2 with
  | Some md =>
      let st := reconcile (md_brokers md) (brokers c, next_conn c) in
      (Ok tt,
       {| brokers := st.1;
          topics := foldl update_topic (topics c) (md_topics md);
          seed_hosts := seed_hosts c;
          next_conn := st.2;
          requests := requests c ++ r.1;
          updates := S (updates c) |})
  | None =>
      (Err ClusterUnreachable,
       {| brokers := brokers c;
          topics := topics c;
          seed_hosts := seed_hosts c;
          next_conn := next_conn c;
          requests := requests c ++ r.1;
          updates := S (updates c) |})
  end.

(** Modelled from the spec: the lookup inside [leader_for] (source
    missing): the topic, then the partition, then its leader id, then the
    Broker Registry; [None] when "the topic or partition is unknown, or the
    named broker id is missing from the Broker Registry". *)
Definition lookup_leader (c : Cluster) (topic : string) (partition : Z)
    : option BrokerHandle :=
  pm ← topics c !! topic;
  p ← pm !! partition;
  l ← leader p;
  brokers c !! l.

(** Modelled from the spec: [leader_for(topic, partition)] (section 4.5,
    source missing), which "looks up the current leader; if the topic or
    partition is unknown, or the named broker id is missing from the Broker
    Registry, transparently triggers update once and retries the lookup;
    fails with PartitionNotFound if still absent after refresh".  A refresh
    that fails ends the call: [ClusterUnreachable] is "terminal; surfaced to
    the caller" (section 7). *)
Definition leader_for (topic : string) (partition : Z) (c : Cluster)
    : result BrokerHandle * Cluster :=
  match lookup_leader c topic partition with
  | Some h => (Ok h, c)
  | None =>
      match update None c with
      | (Err e, c') => (Err e, c')
      | (Ok _, c') =>
          match lookup_leader c' topic partition with
          | Some h => (Ok h, c')
          | None => (Err PartitionNotFound, c')
          end
      end
  end.

(** Modelled from the spec: [bootstrap()] (section 4.5, source missing),
    "called once at construction": it "resolves the seed description into
    a candidate broker address list" and "connects to candidates in order
    until one answers a metadata request; fails with ClusterUnreachable if
    all candidates fail".  The candidates become the seed list of the new
    cluster state, whose first refresh asks them. *)
Definition bootstrap (P : HostListProvider) (a : Cluster.args)
    : result unit * Cluster :=
  update None
    {| brokers := ∅;
       topics := ∅;
       seed_hosts := bootstrap_candidates P a;
       next_conn := 0;
       requests := [];
       updates := 0 |}.

End Network.

(** A two-broker cluster to run the model on: the seed [kafka1:9092]
    answers with both brokers and the topic [events], led by brokers 1
    and 2; no other address answers. *)
Definition example_metadata : Metadata :=
  {| md_brokers := [(1%Z, ("kafka1", 9092%Z)); (2%Z, ("kafka2", 9092%Z))];
     md_topics :=
       [("events",
         {[ 0%Z := {| leader := Some 1%Z; replicas := [1%Z; 2%Z];
                      isr := [1%Z; 2%Z] |};
            1%Z := {| leader := Some 2%Z; replicas := [2%Z; 1%Z];
                      isr := [2%Z] |} ]})] |}.

Definition example_net (a : address) (topics_arg : option (list string))
    : option Metadata :=
  if decide (a = ("kafka1", 9092%Z)) then Some example_metadata else None.

Definition down_net (a : address) (topics_arg : option (list string))
    : option Metadata := None.

Definition fresh_cluster : Cluster :=
  {| brokers := ∅;
     topics := ∅;
     seed_hosts := [("kafka1", 9092%Z)];
     next_conn := 0;
     requests := [];
     updates := 0 |}.

(** A cluster whose topology has gone stale: it tracks brokers 1 and 3, both
    connected, and believes partition 0 of [events] to be led by broker 9. *)
Definition connected_handle (b : Z * address) (n : nat) : BrokerHandle :=
  {| broker_id := b.1;
     broker_host := b.2.1;
     broker_port := b.2.2;
     conn := {| conn_id := n; conn_open := true |};
     offsets_conn := {| conn_id := S n; conn_open := true |};
     alive := true |}.

Definition stale_cluster : Cluster :=
  {| brokers :=
       {[ 1%Z := connected_handle (1%Z, ("kafka1", 9092%Z)) 0;
          3%Z := connected_handle (3%Z, ("kafka3", 9092%Z)) 2 ]};
     topics :=
       {[ "events" :=
            {[ 0%Z := {| leader := Some 9%Z; replicas := [9%Z];
                         isr := [9%Z] |} ]} ]};
     seed_hosts := [("kafka1", 9092%Z)];
     next_conn := 4;
     requests := [];
     updates := 1 |}.

End Coordinator.

(** ** Test doubles for the collaborators

    A handler is one fresh empty object.  A cluster is a fresh object whose
    [brokers] and [topics] attributes refer to two further fresh objects, and
    whose [update] registers broker 1 in the broker registry, in place. *)

Module Stub.

Definition fresh (h : store) : loc :=
  Pos.succ (map_fold (fun l _ m => Pos.max l m) 1%positive h).

Definition ThreadingHandler_new (h : store) : outcome loc * store :=
  let l := fresh h in (Returns l, <[l := ∅]> h).

Definition Cluster_new (a : Cluster.args) (h : store) : outcome loc * store :=
  let b := fresh h in
  let h1 := <[b := ∅]> h in
  let t := fresh h1 in
  let h2 := <[t := ∅]> h1 in
  let c := fresh h2 in
  (Returns c,
   <[c := {[ "brokers" := PyRef b; "topics" := PyRef t ]}]> h2).

Definition Cluster_update (c : loc) (args : list pyval)
    (kwargs : list (string * pyval)) (h : store) : outcome pyval * store :=
  match getattr h c "brokers" with
  | Returns (PyRef b) =>
      (Returns PyNone, alter (fun d => <["1" := PyStr "kafka1:9092"]> d) b h)
  | _ => (Raises (Raised "ClusterUnreachable"), h)
  end.

Definition collaborators : Collaborators :=
  Build_Collaborators ThreadingHandler_new Cluster_new Cluster_update.

Definition empty_world : world := {| heap := ∅; calls := [] |}.

(** The client that [KafkaClient()] builds with the test doubles, from an
    empty store. *)
Definition default_client : KafkaClient.t :=
  {| KafkaClient._seed_hosts := PyStr "127.0.0.1:9092";
     KafkaClient._source_address := PyStr "";
     KafkaClient._socket_timeout_ms := PyInt 30000;
     KafkaClient._offsets_channel_socket_timeout_ms := PyInt 10000;
     KafkaClient._handler := 2%positive;
     KafkaClient.cluster := 5%positive;
     KafkaClient.brokers := PyRef 3%positive;
     KafkaClient.topics := PyRef 4%positive |}.



(** A host-list provider: one static broker for any host list, two brokers
    from the coordination service. *)
Definition provider : Coordinator.HostListProvider :=
  {| Coordinator.static_parse := fun _ => [("kafka1", 9092%Z)];
     Coordinator.service_lookup :=
       fun _ => [("kafka1", 9092%Z); ("kafka2", 9092%Z)] |}.

(** Collaborators whose cluster cannot be constructed: [Cluster(...)]
    raises and leaves the store as it found it. *)
Definition Cluster_failing (a : Cluster.args) (h : store)
    : outcome loc * store :=
  (Raises (Raised "KafkaException"), h).

Definition failing_collaborators : Collaborators :=
  Build_Collaborators ThreadingHandler_new Cluster_failing Cluster_update.

(** [KafkaClient(hosts='kafka1:9092', zookeeper_hosts='zk1:2181/kafka')],
    after binding. *)
Definition zk_params : KafkaClient.params :=
  {| KafkaClient.hosts := PyStr "kafka1:9092";
     KafkaClient.zookeeper_hosts := PyStr "zk1:2181/kafka";
     KafkaClient.socket_timeout_ms := PyInt 30000;
     KafkaClient.offsets_channel_socket_timeout_ms := PyInt 10000;
     KafkaClient.exclude_internal_topics := PyBool true;
     KafkaClient.source_address := PyStr "" |}.

(** The client that call builds with the test doubles, from an empty store. *)
Definition zk_client : KafkaClient.t :=
  {| KafkaClient._seed_hosts := PyStr "zk1:2181/kafka";
     KafkaClient._source_address := PyStr "";
     KafkaClient._socket_timeout_ms := PyInt 30000;
     KafkaClient._offsets_channel_socket_timeout_ms := PyInt 10000;
     KafkaClient._handler := 2%positive;
     KafkaClient.cluster := 5%positive;
     KafkaClient.brokers := PyRef 3%positive;
     KafkaClient.topics := PyRef 4%positive |}.

(** The world after a constructor call on an empty store, and after one
    [update_cluster] on the client it built. *)
Definition built (p : KafkaClient.params) : world :=
  (KafkaClient.__init__ collaborators p empty_world).2.

Definition refreshed (p : KafkaClient.params) (k : KafkaClient.t) : world :=
  (KafkaClient.update_cluster collaborators k (built p)).2.

(** A call that passes one option only,
    [KafkaClient(source_address='10.0.0.7')], and the client it builds. *)
Definition one_option : gmap string pyval :=
  {[ "source_address" := PyStr "10.0.0.7" ]}.

Definition one_option_client : KafkaClient.t :=
  {| KafkaClient._seed_hosts := PyStr "127.0.0.1:9092";
     KafkaClient._source_address := PyStr "10.0.0.7";
     KafkaClient._socket_timeout_ms := PyInt 30000;
     KafkaClient._offsets_channel_socket_timeout_ms := PyInt 10000;
     KafkaClient._handler := 2%positive;
     KafkaClient.cluster := 5%positive;
     KafkaClient.brokers := PyRef 3%positive;
     KafkaClient.topics := PyRef 4%positive |}.

End Stub.


(** * Properties of [KafkaClient] *)

Section ClientProofs.
Import KafkaClient.
Variable E : Collaborators.

Ltac run_init :=
  unfold __init__, bind, external, read_attr, ret; simpl.

(** The binding of arguments on three calls: a keyword after a positional
    argument; a keyword for a parameter the positional argument has filled;
    a keyword that names no parameter. *)
Example bind_positional_and_keyword :
  bind_arguments [PyStr "kafka1:9092"]
    {[ "zookeeper_hosts" := PyStr "zk1:2181" ]}
  = Returns {| hosts := PyStr "kafka1:9092";
               zookeeper_hosts := PyStr "zk1:2181";
               socket_timeout_ms := PyInt 30000;
               offsets_channel_socket_timeout_ms := PyInt 10000;
               exclude_internal_topics := PyBool true;
               source_address := PyStr "" |}.
Proof. vm_compute; reflexivity. Qed.

Example bind_twice_is_rejected :
  bind_arguments [PyStr "kafka1:9092"] {[ "hosts" := PyStr "kafka2:9092" ]}
  = Raises TypeError.
Proof. vm_compute; reflexivity. Qed.

Example bind_unknown_keyword_is_rejected :
  bind_arguments [] {[ "timeout" := PyInt 5 ]} = Raises TypeError.
Proof. vm_compute; reflexivity. Qed.

(** What a constructor call that returns has done. *)
Lemma init_returns (p : params) (w w' : world) (k : t) :
  __init__ E p w = (Returns k, w') ->
  exists h1,
    ThreadingHandler_new E (heap w) = (Returns (_handler k), h1)
    /\ Cluster_new E
         (cluster_args p (source_address p) (socket_timeout_ms p)
            (offsets_channel_socket_timeout_ms p) (_handler k)) h1
       = (Returns (cluster k), heap w')
    /\ calls w' =
       calls w ++
       [Call_ThreadingHandler;
        Call_Cluster
          (cluster_args p (source_address p) (socket_timeout_ms p)
             (offsets_channel_socket_timeout_ms p) (_handler k))]
    /\ getattr (heap w') (cluster k) "brokers" = Returns (brokers k)
    /\ getattr (heap w') (cluster k) "topics" = Returns (topics k)
    /\ _seed_hosts k =
       (if is_not_None (zookeeper_hosts p) then zookeeper_hosts p else hosts p)
    /\ _source_address k = source_address p
    /\ _socket_timeout_ms k = socket_timeout_ms p
    /\ _offsets_channel_socket_timeout_ms k =
       offsets_channel_socket_timeout_ms p.
Proof.
  run_init.
  destruct (ThreadingHandler_new E (heap w)) as [[hd|e] h1] eqn:Hh;
    simpl; [|discriminate].
  destruct (Cluster_new E _ h1) as [[c|e] h2] eqn:Hc; simpl; [|discriminate].
  destruct (getattr h2 c "brokers") as [vb|e] eqn:Hb; [|discriminate].
  destruct (getattr h2 c "topics") as [vt|e] eqn:Ht; [|discriminate].
  intros [= <- <-]; simpl.
  exists h1. rewrite <- app_assoc. simpl. by repeat split.
Qed.

(** The calls a constructor call makes, whatever its outcome. *)
Lemma init_calls (p : params) (w : world) :
  calls (__init__ E p w).2 =
  calls w ++
  Call_ThreadingHandler ::
  match (ThreadingHandler_new E (heap w)).1 with
  | Returns hd =>
      [Call_Cluster
         (cluster_args p (source_address p) (socket_timeout_ms p)
            (offsets_channel_socket_timeout_ms p) hd)]
  | Raises _ => []
  end.
Proof.
  run_init.
  destruct (ThreadingHandler_new E (heap w)) as [[hd|e] h1]; simpl; [|done].
  destruct (Cluster_new E _ h1) as [[c|e] h2]; simpl;
    [|by rewrite <- app_assoc].
  destruct (getattr h2 c "brokers"); simpl; [|by rewrite <- app_assoc].
  destruct (getattr h2 c "topics"); simpl; by rewrite <- app_assoc.
Qed.

(** The constructor after the handler has been created: one call of
    [Cluster(...)], whose outcome decides the rest. *)
Lemma init_after_handler (p : params) (w : world) (hd : loc) (h1 : store) :
  ThreadingHandler_new E (heap w) = (Returns hd, h1) ->
  let a :=
    cluster_args p (source_address p) (socket_timeout_ms p)
      (offsets_channel_socket_timeout_ms p) hd in
  let r := Cluster_new E a h1 in
  __init__ E p w =
  (match r.1 with
   | Raises e => Raises e
   | Returns c =>
       match getattr r.2 c "brokers" with
       | Raises e => Raises e
       | Returns vb =>
           match getattr r.2 c "topics" with
           | Raises e => Raises e
           | Returns vt =>
               Returns
                 {| _seed_hosts :=
                      if is_not_None (zookeeper_hosts p)
                      then zookeeper_hosts p else hosts p;
                    _source_address := source_address p;
                    _socket_timeout_ms := socket_timeout_ms p;
                    _offsets_channel_socket_timeout_ms :=
                      offsets_channel_socket_timeout_ms p;
                    _handler := hd;
                    cluster := c;
                    brokers := vb;
                    topics := vt |}
           end
       end
   end,
   {| heap := r.2;
      calls := calls w ++ [Call_ThreadingHandler; Call_Cluster a] |}).
Proof.
  intros Hh a r. subst r. run_init. rewrite Hh. simpl. fold a.
  destruct (Cluster_new E a h1) as [[c|e] h2]; simpl;
    [|by rewrite <- app_assoc].
  destruct (getattr h2 c "brokers"); simpl; [|by rewrite <- app_assoc].
  destruct (getattr h2 c "topics"); simpl; by rewrite <- app_assoc.
Qed.

(** C1: [update_cluster] calls [update] of the client's cluster exactly once,
    with no argument at all, and does nothing else: the call log grows by
    that one call, the store is the one [Cluster.update] leaves, and an
    exception of [Cluster.update] is the exception of [update_cluster]. *)
Theorem update_cluster_is_one_update (self : t) (w : world) :
  KafkaClient.update_cluster E self w =
  (match (Cluster_update E (cluster self) [] [] (heap w)).1 with
   | Returns _ => Returns PyNone
   | Raises e => Raises e
   end,
   {| heap := (Cluster_update E (cluster self) [] [] (heap w)).2;
      calls := calls w ++ [Call_method (cluster self) "update" [] []] |}).
Proof.
  unfold update_cluster, bind, external, ret.
  by destruct (Cluster_update E (cluster self) [] [] (heap w)) as [[v|e] h'].
Qed.

(** C2: when [zookeeper_hosts] is not [None], the cluster is constructed
    with arguments whose seed description is that ZooKeeper address, whatever
    [hosts] is: the candidate broker addresses resolved from them are the
    coordination service's answer for that address, and they are the seed
    list of the bootstrapped cluster; the client keeps the same address as
    its own seed description. *)
Theorem zookeeper_hosts_take_precedence (P : Coordinator.HostListProvider)
    (net : Coordinator.address -> option (list string) ->
           option Coordinator.Metadata)
    (p : params) (w w' : world) (k : t) :
  zookeeper_hosts p <> PyNone ->
  __init__ E p w = (Returns k, w') ->
  exists a h1,
    Cluster_new E a h1 = (Returns (cluster k), heap w')
    /\ last (calls w') = Some (Call_Cluster a)
    /\ Coordinator.seed_description a = zookeeper_hosts p
    /\ Coordinator.bootstrap_candidates P a
       = Coordinator.service_lookup P (zookeeper_hosts p)
    /\ Coordinator.seed_hosts (Coordinator.bootstrap net P a).2
       = Coordinator.service_lookup P (zookeeper_hosts p)
    /\ _seed_hosts k = zookeeper_hosts p.
Proof.
  intros Hzk Hrun.
  destruct (init_returns p w w' k Hrun)
    as (h1 & _ & Hc & Hlog & _ & _ & Hseed & _).
  eexists _, h1. split; [exact Hc|].
  split; [by rewrite Hlog, last_app_cons|].
  assert (Hnn : is_not_None (zookeeper_hosts p) = true)
    by (by destruct (zookeeper_hosts p)).
  assert (Hcand :
    Coordinator.bootstrap_candidates P
      (cluster_args p (source_address p) (socket_timeout_ms p)
         (offsets_channel_socket_timeout_ms p) (_handler k))
    = Coordinator.service_lookup P (zookeeper_hosts p)).
  { unfold Coordinator.bootstrap_candidates, Coordinator.seed_description.
    simpl. by rewrite Hnn. }
  split; [unfold Coordinator.seed_description; simpl; by rewrite Hnn|].
  split; [exact Hcand|]. split; [|by rewrite Hseed, Hnn].
  unfold Coordinator.bootstrap, Coordinator.update. rewrite Hcand.
  by destruct (Coordinator.ask net None _).2.
Qed.

(** C3: a call that passes none of [socket_timeout_ms],
    [offsets_channel_socket_timeout_ms] and [exclude_internal_topics] builds a
    client, and a cluster, with 30000, 10000 and [True] for them. *)
Theorem default_configuration (args : list pyval) (kwargs : gmap string pyval)
    (w w' : world) (k : t) :
  (length args <= 2)%nat ->
  kwargs !! "socket_timeout_ms" = None ->
  kwargs !! "offsets_channel_socket_timeout_ms" = None ->
  kwargs !! "exclude_internal_topics" = None ->
  new E args kwargs w = (Returns k, w') ->
  _socket_timeout_ms k = PyInt 30000
  /\ _offsets_channel_socket_timeout_ms k = PyInt 10000
  /\ exists a, last (calls w') = Some (Call_Cluster a)
       /\ Cluster.socket_timeout_ms a = PyInt 30000
       /\ Cluster.offsets_channel_socket_timeout_ms a = PyInt 10000
       /\ Cluster.exclude_internal_topics a = PyBool true.
Proof.
  intros Hlen Hs Ho He. unfold new, bind_arguments.
  destruct (accepts args kwargs); [|discriminate].
  intros Hrun.
  destruct (init_returns _ w w' k Hrun)
    as (h1 & _ & _ & Hlog & _ & _ & _ & _ & Hst & Hot).
  assert (Hb : forall i, (2 <= i)%nat -> args !! i = None)
    by (intros i Hi; apply lookup_ge_None_2; lia).
  simpl in Hst, Hot.
  unfold bound in Hst, Hot. rewrite Hb in Hst, Hot by lia.
  simpl in Hst, Hot. rewrite Hs in Hst. rewrite Ho in Hot.
  split; [done|]. split; [done|].
  eexists. split; [by rewrite Hlog, last_app_cons|].
  simpl. unfold bound. rewrite !Hb by lia. simpl. by rewrite Hs, Ho, He.
Qed.

(** C4: a constructor call, once its handler exists, constructs one
    cluster, and only one: it calls [Cluster(...)] once, with [hosts],
    [socket_timeout_ms], [offsets_channel_socket_timeout_ms],
    [exclude_internal_topics], [source_address] and [zookeeper_hosts] as the
    call received them and with the handler just created; the store and the
    outcome are those of that one construction, and the client returned
    holds the cluster constructed, its two registries, and as its seed
    description one of the two addresses handed over. *)
Theorem one_cluster_with_the_configuration (p : params) (w : world)
    (hd : loc) (h1 : store) :
  ThreadingHandler_new E (heap w) = (Returns hd, h1) ->
  let a :=
    {| Cluster.hosts := hosts p;
       Cluster.handler := PyRef hd;
       Cluster.socket_timeout_ms := socket_timeout_ms p;
       Cluster.offsets_channel_socket_timeout_ms :=
         offsets_channel_socket_timeout_ms p;
       Cluster.exclude_internal_topics := exclude_internal_topics p;
       Cluster.source_address := source_address p;
       Cluster.zookeeper_hosts := zookeeper_hosts p |} in
  let r := Cluster_new E a h1 in
  __init__ E p w =
  (match r.1 with
   | Raises e => Raises e
   | Returns c =>
       match getattr r.2 c "brokers" with
       | Raises e => Raises e
       | Returns vb =>
           match getattr r.2 c "topics" with
           | Raises e => Raises e
           | Returns vt =>
               Returns
                 {| _seed_hosts :=
                      if is_not_None (Cluster.zookeeper_hosts a)
                      then Cluster.zookeeper_hosts a else Cluster.hosts a;
                    _source_address := Cluster.source_address a;
                    _socket_timeout_ms := Cluster.socket_timeout_ms a;
                    _offsets_channel_socket_timeout_ms :=
                      Cluster.offsets_channel_socket_timeout_ms a;
                    _handler := hd;
                    cluster := c;
                    brokers := vb;
                    topics := vt |}
           end
       end
   end,
   {| heap := r.2;
      calls := calls w ++ [Call_ThreadingHandler; Call_Cluster a] |}).
Proof.
  intros Hh a r. exact (init_after_handler p w hd h1 Hh).
Qed.


(** C10: the call [KafkaClient()] is accepted; it binds [hosts] to
    ['127.0.0.1:9092'] and [zookeeper_hosts] to [None]; once its handler
    exists it constructs the cluster with exactly these, and the client it
    returns, when the construction and the two reads succeed, has
    ['127.0.0.1:9092'] as its seed description. *)
Theorem construction_without_arguments (w : world) (hd : loc) (h1 : store) :
  ThreadingHandler_new E (heap w) = (Returns hd, h1) ->
  let a :=
    {| Cluster.hosts := PyStr "127.0.0.1:9092";
       Cluster.handler := PyRef hd;
       Cluster.socket_timeout_ms := PyInt 30000;
       Cluster.offsets_channel_socket_timeout_ms := PyInt 10000;
       Cluster.exclude_internal_topics := PyBool true;
       Cluster.source_address := PyStr "";
       Cluster.zookeeper_hosts := PyNone |} in
  let r := Cluster_new E a h1 in
  bind_arguments [] ∅ =
    Returns {| hosts := PyStr "127.0.0.1:9092";
               zookeeper_hosts := PyNone;
               socket_timeout_ms := PyInt 30000;
               offsets_channel_socket_timeout_ms := PyInt 10000;
               exclude_internal_topics := PyBool true;
               source_address := PyStr "" |}
  /\ new E [] ∅ w =
     (match r.1 with
      | Raises e => Raises e
      | Returns c =>
          match getattr r.2 c "brokers" with
          | Raises e => Raises e
          | Returns vb =>
              match getattr r.2 c "topics" with
              | Raises e => Raises e
              | Returns vt =>
                  Returns
                    {| _seed_hosts := PyStr "127.0.0.1:9092";
                       _source_address := PyStr "";
                       _socket_timeout_ms := PyInt 30000;
                       _offsets_channel_socket_timeout_ms := PyInt 10000;
                       _handler := hd;
                       cluster := c;
                       brokers := vb;
                       topics := vt |}
              end
          end
      end,
      {| heap := r.2;
         calls := calls w ++ [Call_ThreadingHandler; Call_Cluster a] |}).
Proof.
  intros Hh a r.
  assert (Hbind : bind_arguments [] ∅ =
    Returns {| hosts := PyStr "127.0.0.1:9092";
               zookeeper_hosts := PyNone;
               socket_timeout_ms := PyInt 30000;
               offsets_channel_socket_timeout_ms := PyInt 10000;
               exclude_internal_topics := PyBool true;
               source_address := PyStr "" |}) by (vm_compute; reflexivity).
  split; [done|]. unfold new. rewrite Hbind.
  exact (init_after_handler _ w hd h1 Hh).
Qed.

End ClientProofs.

(** ** The theorems above at the test doubles *)

Lemma zookeeper_hosts_take_precedence_witness :
  KafkaClient.zookeeper_hosts Stub.zk_params <> PyNone
  /\ KafkaClient.__init__ Stub.collaborators Stub.zk_params Stub.empty_world
     = (Returns Stub.zk_client, Stub.built Stub.zk_params)
  /\ exists a h1,
       Cluster_new Stub.collaborators a h1
       = (Returns 5%positive, heap (Stub.built Stub.zk_params))
       /\ last (calls (Stub.built Stub.zk_params)) = Some (Call_Cluster a)
       /\ Coordinator.seed_description a = PyStr "zk1:2181/kafka"
       /\ Coordinator.bootstrap_candidates Stub.provider a
          = [("kafka1", 9092%Z); ("kafka2", 9092%Z)]
       /\ Coordinator.seed_hosts
            (Coordinator.bootstrap Coordinator.example_net Stub.provider a).2
          = [("kafka1", 9092%Z); ("kafka2", 9092%Z)]
       /\ KafkaClient._seed_hosts Stub.zk_client = PyStr "zk1:2181/kafka".
Proof.
  split; [discriminate|]. split; [vm_compute; reflexivity|].
  apply (zookeeper_hosts_take_precedence Stub.collaborators Stub.provider
           Coordinator.example_net Stub.zk_params Stub.empty_world
           (Stub.built Stub.zk_params) Stub.zk_client).
  - discriminate.
  - vm_compute; reflexivity.
Defined.

Lemma default_configuration_witness :
  KafkaClient.new Stub.collaborators [] Stub.one_option Stub.empty_world
  = (Returns Stub.one_option_client,
     (KafkaClient.new Stub.collaborators [] Stub.one_option
        Stub.empty_world).2)
  /\ KafkaClient._socket_timeout_ms Stub.one_option_client = PyInt 30000
  /\ KafkaClient._offsets_channel_socket_timeout_ms Stub.one_option_client
     = PyInt 10000.
Proof.
  split; [vm_compute; reflexivity|].
  destruct (default_configuration Stub.collaborators [] Stub.one_option
              Stub.empty_world
              (KafkaClient.new Stub.collaborators [] Stub.one_option
                 Stub.empty_world).2
              Stub.one_option_client) as (Hs & Ho & _).
  - simpl; lia.
  - vm_compute; reflexivity.
  - vm_compute; reflexivity.
  - vm_compute; reflexivity.
  - vm_compute; reflexivity.
  - exact (conj Hs Ho).
Defined.

Lemma one_cluster_with_the_configuration_witness :
  ThreadingHandler_new Stub.collaborators (heap Stub.empty_world)
  = (Returns 2%positive, <[2%positive := ∅]> ∅)
  /\ KafkaClient.__init__ Stub.collaborators Stub.zk_params Stub.empty_world
     = (Returns Stub.zk_client,
        {| heap :=
             (Cluster_new Stub.collaborators
                {| Cluster.hosts := PyStr "kafka1:9092";
                   Cluster.handler := PyRef 2%positive;
                   Cluster.socket_timeout_ms := PyInt 30000;
                   Cluster.offsets_channel_socket_timeout_ms := PyInt 10000;
                   Cluster.exclude_internal_topics := PyBool true;
                   Cluster.source_address := PyStr "";
                   Cluster.zookeeper_hosts := PyStr "zk1:2181/kafka" |}
                (<[2%positive := ∅]> ∅)).2;
           calls :=
             [Call_ThreadingHandler;
              Call_Cluster
                {| Cluster.hosts := PyStr "kafka1:9092";
                   Cluster.handler := PyRef 2%positive;
                   Cluster.socket_timeout_ms := PyInt 30000;
                   Cluster.offsets_channel_socket_timeout_ms := PyInt 10000;
                   Cluster.exclude_internal_topics := PyBool true;
                   Cluster.source_address := PyStr "";
                   Cluster.zookeeper_hosts := PyStr "zk1:2181/kafka" |}] |}).
Proof.
  split; [vm_compute; reflexivity|].
  etransitivity.
  - apply (one_cluster_with_the_configuration Stub.collaborators
             Stub.zk_params Stub.empty_world 2%positive
             (<[2%positive := ∅]> ∅)).
    vm_compute; reflexivity.
  - vm_compute; reflexivity.
Defined.



Lemma construction_without_arguments_witness :
  ThreadingHandler_new Stub.collaborators (heap Stub.empty_world)
  = (Returns 2%positive, <[2%positive := ∅]> ∅)
  /\ KafkaClient.new Stub.collaborators [] ∅ Stub.empty_world
     = (Returns Stub.default_client,
        {| heap :=
             (Cluster_new Stub.collaborators
                {| Cluster.hosts := PyStr "127.0.0.1:9092";
                   Cluster.handler := PyRef 2%positive;
                   Cluster.socket_timeout_ms := PyInt 30000;
                   Cluster.offsets_channel_socket_timeout_ms := PyInt 10000;
                   Cluster.exclude_internal_topics := PyBool true;
                   Cluster.source_address := PyStr "";
                   Cluster.zookeeper_hosts := PyNone |}
                (<[2%positive := ∅]> ∅)).2;
           calls :=
             [Call_ThreadingHandler;
              Call_Cluster
                {| Cluster.hosts := PyStr "127.0.0.1:9092";
                   Cluster.handler := PyRef 2%positive;
                   Cluster.socket_timeout_ms := PyInt 30000;
                   Cluster.offsets_channel_socket_timeout_ms := PyInt 10000;
                   Cluster.exclude_internal_topics := PyBool true;
                   Cluster.source_address := PyStr "";
                   Cluster.zookeeper_hosts := PyNone |}] |})
  /\ KafkaClient._seed_hosts Stub.default_client = PyStr "127.0.0.1:9092".
Proof.
  split; [vm_compute; reflexivity|]. split; [|reflexivity].
  destruct (construction_without_arguments Stub.collaborators
              Stub.empty_world 2%positive (<[2%positive := ∅]> ∅))
    as [_ Hnew].
  - vm_compute; reflexivity.
  - etransitivity; [exact Hnew|]. vm_compute; reflexivity.
Defined.

(** * Properties of the cluster coordinator *)

Section CoordinatorProofs.
Import Coordinator.

(** Registering brokers that are all tracked already changes nothing. *)
Lemma register_tracked (new : list (Z * address))
    (st : gmap Z BrokerHandle * nat) :
  (forall b, b ∈ new -> is_Some (st.1 !! b.1)) ->
  foldl register st new = st.
Proof.
  revert st. induction new as [|b new IH]; intros st Hall; simpl; [done|].
  assert (Hb : register st b = st).
  { unfold register. destruct (Hall b) as [h ->]; [left|done]. }
  rewrite Hb. apply IH. intros b' Hb'. apply Hall. by right.
Qed.

(** After registering a list, the tracked ids are the old ones and the
    list's. *)
Lemma register_tracks (new : list (Z * address))
    (st : gmap Z BrokerHandle * nat) (i : Z) :
  is_Some ((foldl register st new).1 !! i) <->
  is_Some (st.1 !! i) \/ i ∈ new.*1.
Proof.
  revert st. induction new as [|b new IH]; intros st; simpl.
  - split; [by left|]. intros [?|Hin]; [done|]. by apply elem_of_nil in Hin.
  - rewrite IH, elem_of_cons. unfold register.
    destruct (st.1 !! b.1) as [h|] eqn:Hb; simpl.
    + split; [intros [?|?]; auto|]. intros [?|[->|?]]; auto.
    + destruct (decide (i = b.1)) as [->|Hne].
      * rewrite lookup_insert_eq. split; [auto|]. intros _. by left.
      * rewrite lookup_insert_ne by done.
        split; [intros [?|?]; auto|]. intros [?|[?|?]]; auto. done.
Qed.

(** After a reconciliation the tracked ids are exactly the list's. *)
Lemma reconcile_tracks (new : list (Z * address))
    (st : gmap Z BrokerHandle * nat) (i : Z) :
  is_Some ((reconcile new st).1 !! i) <-> i ∈ new.*1.
Proof.
  unfold reconcile. rewrite register_tracks. simpl.
  split; [|by right]. intros [[h Hh]|?]; [|done].
  by apply map_lookup_filter_Some in Hh as [_ ?].
Qed.

(** Reconciling a second time against the same list changes nothing: no
    handle is removed, replaced or created. *)
Lemma reconcile_idempotent (new : list (Z * address))
    (st : gmap Z BrokerHandle * nat) :
  reconcile new (reconcile new st) = reconcile new st.
Proof.
  set (st1 := reconcile new st).
  unfold reconcile at 1.
  assert (Hkeep : filter (fun kv : Z * BrokerHandle => kv.1 ∈ new.*1) st1.1
                  = st1.1).
  { apply map_filter_id. intros i h Hi. simpl.
    apply (reconcile_tracks new st i). by exists h. }
  rewrite Hkeep. destruct st1 as [reg n] eqn:Hst1. simpl.
  apply register_tracked. intros b Hb. simpl.
  change reg with (reg, n).1. rewrite <- Hst1.
  apply reconcile_tracks. by apply list_elem_of_fmap_2.
Qed.

(** A refresh none of whose candidates answers has asked them all. *)
Lemma ask_none (net : address -> option (list string) -> option Metadata)
    (topics_arg : option (list string)) (cands : list address) :
  (forall a, a ∈ cands -> net a topics_arg = None) ->
  ask net topics_arg cands = (cands, None).
Proof.
  induction cands as [|a cands IH]; intros Hall; simpl; [done|].
  rewrite (Hall a) by left.
  rewrite IH; [done|]. intros a' Ha'. apply Hall. by right.
Qed.

(** The model on the stale cluster: a refresh answered by [kafka1] keeps
    broker 1 with its open Connections, drops broker 3, and adds broker 2
    with two new, unopened Connections. *)
Example refresh_of_stale_cluster :
  let c := (update example_net None stale_cluster).2 in
  brokers c !! 1%Z = Some (connected_handle (1%Z, ("kafka1", 9092%Z)) 0)
  /\ brokers c !! 3%Z = None
  /\ brokers c !! 2%Z = Some (new_handle (2%Z, ("kafka2", 9092%Z)) 4)
  /\ elements (connections c) = [4; 5; 1; 0]%nat.
Proof. vm_compute. by repeat split. Qed.

(** With the whole cluster down, the lookup on the stale cluster still makes
    its one refresh, which asks the two known brokers and the seed, and the
    failure of that refresh is the failure of the call. *)
Example leader_for_on_unreachable_cluster :
  let r := leader_for down_net "events" 0 stale_cluster in
  r.1 = Err ClusterUnreachable
  /\ updates r.2 = 2%nat
  /\ requests r.2 =
     [("kafka3", 9092%Z); ("kafka1", 9092%Z); ("kafka1", 9092%Z)]
  /\ brokers r.2 = brokers stale_cluster.
Proof. vm_compute. by repeat split. Qed.

(** What an answered refresh does to the Broker Registry. *)
Lemma update_answered
    (net : address -> option (list string) -> option Metadata)
    (topics_arg : option (list string)) (c : Cluster) (md : Metadata) :
  (ask net topics_arg (candidates c)).2 = Some md ->
  (brokers (update net topics_arg c).2, next_conn (update net topics_arg c).2)
  = reconcile (md_brokers md) (brokers c, next_conn c).
Proof.
  intros Hmd. unfold update. rewrite Hmd. simpl.
  by destruct (reconcile (md_brokers md) (brokers c, next_conn c)).
Qed.

(** C6: a refresh that fails against every known broker and every seed
    fails with [ClusterUnreachable], and the Broker Registry, the Topic
    Registry and the seed list are what they were before the call. *)
Theorem update_unreachable_keeps_topology
    (net : address -> option (list string) -> option Metadata)
    (topics_arg : option (list string)) (c : Cluster) :
  (forall a, a ∈ candidates c -> net a topics_arg = None) ->
  (update net topics_arg c).1 = Err ClusterUnreachable
  /\ brokers (update net topics_arg c).2 = brokers c
  /\ topics (update net topics_arg c).2 = topics c
  /\ seed_hosts (update net topics_arg c).2 = seed_hosts c.
Proof.
  intros Hdown. unfold update. by rewrite (ask_none _ _ _ Hdown).
Qed.

(** C8: when two refreshes in a row are answered with the same metadata,
    the second leaves the Broker Registry as the first left it: every broker
    keeps its handle and both its Connections, none is created, and the set
    of Connection objects is the same. *)
Theorem update_twice_same_connections
    (net net' : address -> option (list string) -> option Metadata)
    (topics_arg topics_arg' : option (list string)) (c : Cluster)
    (md : Metadata) :
  (ask net topics_arg (candidates c)).2 = Some md ->
  (ask net' topics_arg' (candidates (update net topics_arg c).2)).2
  = Some md ->
  let c1 := (update net topics_arg c).2 in
  let c2 := (update net' topics_arg' c1).2 in
  connections c2 = connections c1
  /\ brokers c2 = brokers c1
  /\ next_conn c2 = next_conn c1.
Proof.
  intros H1 H2 c1 c2.
  assert (Hst : (brokers c2, next_conn c2) = (brokers c1, next_conn c1)).
  { subst c2. rewrite (update_answered net' topics_arg' c1 md H2).
    subst c1. rewrite (update_answered net topics_arg c md H1).
    apply reconcile_idempotent. }
  injection Hst as Hb Hn. unfold connections. by rewrite Hb.
Qed.


End CoordinatorProofs.

(** ** The theorems above on the two-broker cluster *)

Lemma update_unreachable_keeps_topology_witness :
  (forall a, a ∈ Coordinator.candidates Coordinator.stale_cluster ->
             Coordinator.down_net a None = None)
  /\ (Coordinator.update Coordinator.down_net None
        Coordinator.stale_cluster).1
     = Coordinator.Err Coordinator.ClusterUnreachable
  /\ Coordinator.brokers
       (Coordinator.update Coordinator.down_net None
          Coordinator.stale_cluster).2
     = Coordinator.brokers Coordinator.stale_cluster
  /\ Coordinator.topics
       (Coordinator.update Coordinator.down_net None
          Coordinator.stale_cluster).2
     = Coordinator.topics Coordinator.stale_cluster.
Proof.
  split; [reflexivity|].
  destruct (update_unreachable_keeps_topology Coordinator.down_net None
              Coordinator.stale_cluster) as (He & Hb & Ht & _).
  - reflexivity.
  - exact (conj He (conj Hb Ht)).
Defined.

Lemma update_twice_same_connections_witness :
  elements
    (Coordinator.connections
       (Coordinator.update Coordinator.example_net None
          (Coordinator.update Coordinator.example_net None
             Coordinator.stale_cluster).2).2)
  = [4; 5; 1; 0]%nat.
Proof.
  destruct (update_twice_same_connections Coordinator.example_net
              Coordinator.example_net None None Coordinator.stale_cluster
              Coordinator.example_metadata) as (Hc & _).
  - vm_compute; reflexivity.
  - vm_compute; reflexivity.
  - rewrite Hc. vm_compute; reflexivity.
Defined.



(** * Further properties of [KafkaClient] *)

Section BindingProofs.
Import KafkaClient.

Lemma signature_names_NoDup : NoDup signature.*1.
Proof. apply (bool_decide_unpack _). vm_compute. reflexivity. Qed.

(** A parameter name has one default. *)
Lemma signature_default_unique (name : string) (d1 d2 : pyval) :
  (name, d1) ∈ signature -> (name, d2) ∈ signature -> d1 = d2.
Proof.
  intros H1 H2.
  apply list_elem_of_lookup in H1 as [i Hi], H2 as [j Hj].
  assert (i = j).
  { apply (NoDup_lookup _ i j name signature_names_NoDup);
      rewrite list_lookup_fmap; [by rewrite Hi|by rewrite Hj]. }
  subst j. rewrite Hi in Hj. by injection Hj.
Qed.

(** The calls that binding rejects, in the caller's terms. *)
Lemma accepts_false_iff (args : list pyval) (kwargs : gmap string pyval) :
  accepts args kwargs = false <->
  (6 < length args)%nat
  \/ (exists name v, kwargs !! name = Some v /\ name ∉ signature.*1)
  \/ (exists i name v,
        (i < length args)%nat /\ signature.*1 !! i = Some name
        /\ kwargs !! name = Some v).
Proof.
  unfold accepts. rewrite andb_false_iff, !bool_decide_eq_false.
  rewrite map_not_Forall by apply _. change (length signature) with 6%nat.
  split.
  - intros [Hlen|(name & v & Hk & Hnot)]; [left; lia|].
    destruct (decide (name ∈ signature.*1)) as [Hin|Hout].
    + right; right. apply list_elem_of_lookup in Hin as [i Hi].
      exists i, name, v. split; [|done].
      destruct (decide (i < length args)%nat) as [|Hge]; [done|].
      exfalso. apply Hnot. apply list_elem_of_lookup.
      exists (i - length args)%nat. rewrite lookup_drop.
      by replace (length args + (i - length args))%nat with i by lia.
    + right; left. by exists name, v.
  - intros [Hlen|[(name & v & Hk & Hout)|(i & name & v & Hi & Hn & Hk)]].
    + left; lia.
    + right. exists name, v. split; [done|]. intros Hin. apply Hout.
      apply list_elem_of_lookup in Hin as [j Hj]. rewrite lookup_drop in Hj.
      apply list_elem_of_lookup. eauto.
    + right. exists name, v. split; [done|]. intros Hin.
      apply list_elem_of_lookup in Hin as [j Hj]. rewrite lookup_drop in Hj.
      assert (i = (length args + j)%nat)
        by apply (NoDup_lookup _ _ _ name signature_names_NoDup Hn Hj).
      lia.
Qed.

(** Binding is insensitive to a keyword that repeats a default. *)
Lemma bound_insert_default (args : list pyval) (kwargs : gmap string pyval)
    (name : string) (dflt : pyval) (i : nat) :
  (name, dflt) ∈ signature ->
  kwargs !! name = None ->
  bound args (<[name := dflt]> kwargs) i = bound args kwargs i.
Proof.
  intros Hsig Hfree. unfold bound.
  destruct (args !! i); [done|].
  destruct (signature !! i) as [[n d]|] eqn:Hi; [|done].
  destruct (decide (name = n)) as [->|Hne].
  - rewrite lookup_insert_eq, Hfree. simpl.
    apply (signature_default_unique n); [done|].
    apply list_elem_of_lookup. eauto.
  - by rewrite lookup_insert_ne.
Qed.

Variable E : Collaborators.

(** X1: a call is rejected with [TypeError] exactly when it has more than
    six positional arguments, or a keyword that names no parameter, or a
    keyword for a parameter that a positional argument has filled already;
    and a rejected call creates no handler and no cluster and leaves the
    store as it was. *)
Theorem rejected_calls (args : list pyval) (kwargs : gmap string pyval)
    (w : world) :
  let rejected :=
    (6 < length args)%nat
    \/ (exists name v, kwargs !! name = Some v /\ name ∉ signature.*1)
    \/ (exists i name v,
          (i < length args)%nat /\ signature.*1 !! i = Some name
          /\ kwargs !! name = Some v) in
  (bind_arguments args kwargs = Raises TypeError <-> rejected)
  /\ (rejected -> new E args kwargs w = (Raises TypeError, w)).
Proof.
  intros rejected. subst rejected. rewrite <- accepts_false_iff.
  unfold new, bind_arguments.
  destruct (accepts args kwargs); split; try done; split; done.
Qed.

(** X2: arguments passed by position bind as the same arguments passed by
    keyword, each under the name of the parameter at its position: the
    order of the parameters is [hosts], [zookeeper_hosts],
    [socket_timeout_ms], [offsets_channel_socket_timeout_ms],
    [exclude_internal_topics], [source_address]. *)
Theorem positional_is_keyword (args : list pyval) :
  (length args <= 6)%nat ->
  bind_arguments args ∅
  = bind_arguments [] (list_to_map (zip signature.*1 args)).
Proof.
  intros Hlen.
  do 7 (destruct args as [|? args]; [vm_compute; reflexivity|]).
  simpl in Hlen. lia.
Qed.

(** X3: passing a parameter's default value by keyword is the same as
    leaving the parameter out, for every call that leaves it out. *)
Theorem explicit_default_is_omission (args : list pyval)
    (kwargs : gmap string pyval) (name : string) (dflt : pyval) :
  (name, dflt) ∈ drop (length args) signature ->
  kwargs !! name = None ->
  bind_arguments args (<[name := dflt]> kwargs) = bind_arguments args kwargs.
Proof.
  intros Hin Hfree.
  assert (Hsig : (name, dflt) ∈ signature).
  { apply list_elem_of_lookup in Hin as [j Hj]. rewrite lookup_drop in Hj.
    apply list_elem_of_lookup. eauto. }
  assert (Hname : name ∈ drop (length args) signature.*1).
  { rewrite <- fmap_drop. by apply (list_elem_of_fmap_2 fst) in Hin. }
  unfold bind_arguments.
  assert (Hacc : accepts args (<[name := dflt]> kwargs) = accepts args kwargs).
  { unfold accepts. f_equal. apply bool_decide_ext.
    rewrite map_Forall_insert by done. tauto. }
  rewrite Hacc. destruct (accepts args kwargs); [|done].
  by rewrite !bound_insert_default.
Qed.

End BindingProofs.

Section ConstructorProofs.
Import KafkaClient.
Variable E : Collaborators.

(** X4: the constructor returns a client exactly when the handler is
    created, the cluster is constructed, and the cluster has a [brokers] and
    a [topics] attribute to read. *)
Theorem construction_succeeds_iff (p : params) (w : world) :
  (exists k w', __init__ E p w = (Returns k, w')) <->
  exists hd h1 c h2 vb vt,
    ThreadingHandler_new E (heap w) = (Returns hd, h1)
    /\ Cluster_new E
         (cluster_args p (source_address p) (socket_timeout_ms p)
            (offsets_channel_socket_timeout_ms p) hd) h1
       = (Returns c, h2)
    /\ getattr h2 c "brokers" = Returns vb
    /\ getattr h2 c "topics" = Returns vt.
Proof.
  split.
  - intros (k & w' & Hrun).
    destruct (init_returns E p w w' k Hrun)
      as (h1 & Hh & Hc & _ & Hb & Ht & _).
    by exists (_handler k), h1, (cluster k), (heap w'), (brokers k), (topics k).
  - intros (hd & h1 & c & h2 & vb & vt & Hh & Hc & Hb & Ht).
    unfold __init__, bind, external, read_attr, ret. simpl.
    rewrite Hh. simpl. rewrite Hc. simpl. rewrite Hb, Ht. eauto.
Qed.

(** X5: when [Cluster(...)] raises, the constructor raises the same
    exception; it has created the handler and attempted that one
    construction, reads no attribute, and the store is as [Cluster(...)]
    left it. *)
Theorem cluster_failure_propagates (p : params) (w : world) (hd : loc)
    (h1 h2 : store) (e : pyexn) :
  ThreadingHandler_new E (heap w) = (Returns hd, h1) ->
  Cluster_new E
    (cluster_args p (source_address p) (socket_timeout_ms p)
       (offsets_channel_socket_timeout_ms p) hd) h1
  = (Raises e, h2) ->
  __init__ E p w
  = (Raises e,
     {| heap := h2;
        calls :=
          calls w ++
          [Call_ThreadingHandler;
           Call_Cluster
             (cluster_args p (source_address p) (socket_timeout_ms p)
                (offsets_channel_socket_timeout_ms p) hd)] |}).
Proof.
  intros Hh Hc. unfold __init__, bind, external, read_attr, ret. simpl.
  rewrite Hh. simpl. rewrite Hc. simpl. by rewrite <- app_assoc.
Qed.

(** X6: without a ZooKeeper address the seed description the client keeps
    is [hosts]; and it is [None] only when [hosts] and [zookeeper_hosts]
    are both [None]. *)
Theorem seed_hosts_fall_back_to_hosts (p : params) (w w' : world) (k : t) :
  __init__ E p w = (Returns k, w') ->
  (zookeeper_hosts p = PyNone -> _seed_hosts k = hosts p)
  /\ (_seed_hosts k = PyNone <->
      hosts p = PyNone /\ zookeeper_hosts p = PyNone).
Proof.
  intros Hrun.
  destruct (init_returns E p w w' k Hrun)
    as (h1 & _ & _ & _ & _ & _ & Hseed & _).
  rewrite Hseed. split.
  - by intros ->.
  - destruct (zookeeper_hosts p); simpl; intuition congruence.
Qed.

(** X7: what a client keeps is what its cluster was constructed with: the
    handler in [_handler], both timeouts and the source address. *)
Theorem client_keeps_what_the_cluster_got (p : params) (w w' : world)
    (k : t) :
  __init__ E p w = (Returns k, w') ->
  exists a, last (calls w') = Some (Call_Cluster a)
    /\ Cluster.handler a = PyRef (_handler k)
    /\ Cluster.socket_timeout_ms a = _socket_timeout_ms k
    /\ Cluster.offsets_channel_socket_timeout_ms a
       = _offsets_channel_socket_timeout_ms k
    /\ Cluster.source_address a = _source_address k.
Proof.
  intros Hrun.
  destruct (init_returns E p w w' k Hrun)
    as (h1 & _ & _ & Hlog & _ & _ & _ & Hsa & Hst & Hot).
  eexists. split; [by rewrite Hlog, last_app_cons|].
  simpl. by rewrite Hsa, Hst, Hot.
Qed.

(** X8: [update_cluster] on a client the constructor has returned goes to
    the cluster that constructor call built: after both, the calls made are
    the handler's creation, the cluster's construction and one [update] on
    the object the construction returned. *)
Theorem update_goes_to_the_constructed_cluster (p : params) (w w' : world)
    (k : t) :
  __init__ E p w = (Returns k, w') ->
  exists a h1,
    Cluster_new E a h1 = (Returns (cluster k), heap w')
    /\ calls (update_cluster E k w').2
       = calls w ++
         [Call_ThreadingHandler; Call_Cluster a;
          Call_method (cluster k) "update" [] []]
    /\ heap (update_cluster E k w').2
       = (Cluster_update E (cluster k) [] [] (heap w')).2.
Proof.
  intros Hrun.
  destruct (init_returns E p w w' k Hrun) as (h1 & _ & Hc & Hlog & _).
  eexists _, h1. split; [exact Hc|].
  unfold update_cluster, bind, external, ret.
  destruct (Cluster_update E (cluster k) [] [] (heap w')) as [[v|e] h'];
    simpl; rewrite Hlog, <- app_assoc; done.
Qed.


End ConstructorProofs.

Section ReprProofs.
Import KafkaClient.
Local Open Scope string_scope.

Lemma append_cancel_l (s a b : string) : s ++ a = s ++ b -> a = b.
Proof. induction s as [|c s IH]; simpl; [done|]. intros [= H]. auto. Qed.

Lemma length_append (a b : string) :
  String.length (a ++ b) = (String.length a + String.length b)%nat.
Proof. induction a as [|c a IH]; simpl; [done|]. by rewrite IH. Qed.

Lemma append_cancel_r (t a b : string) : a ++ t = b ++ t -> a = b.
Proof.
  revert b. induction a as [|c a IH]; intros [|d b]; simpl; [done| | |].
  - intros H. apply (f_equal String.length) in H.
    rewrite !length_append in H. simpl in H. lia.
  - intros H. apply (f_equal String.length) in H.
    rewrite !length_append in H. simpl in H. lia.
  - intros H. injection H as -> H. f_equal. by apply IH.
Qed.

(** Two texts without a character [c], each followed by [c], are equal
    when the whole strings are, and so are the rests. *)
Lemma split_at_first (c : ascii) (s1 s2 t1 t2 : string) :
  free_of c s1 -> free_of c s2 ->
  s1 ++ String c t1 = s2 ++ String c t2 -> s1 = s2 /\ t1 = t2.
Proof.
  revert s2. induction s1 as [|a s1 IH]; intros [|b s2]; simpl.
  - by intros _ _ [= ->].
  - intros _ [Hb _] [= H _]. by destruct Hb.
  - intros [Ha _] _ [= H _]. by destruct Ha.
  - intros [_ H1] [_ H2] [= -> H]. destruct (IH s2 H1 H2 H) as [-> ->]. done.
Qed.

Lemma raw_hex_free_of_space (p : positive) (rest : string) :
  free_of " " rest -> free_of " " (HexString.Raw.of_pos p rest).
Proof.
  revert rest.
  induction p as [p IH]
    using (well_founded_induction
             (Wf_nat.well_founded_ltof _ Pos.to_nat)).
  intros rest Hrest.
  do 4 (try destruct p as [p|p|]); cbn;
    try (apply IH; [unfold Wf_nat.ltof; lia|]); cbn;
    repeat split; try assumption; discriminate.
Qed.

(** [hex] writes no space. *)
Lemma hex_free_of_space (n : Z) : free_of " " (hex n).
Proof.
  destruct n as [|p|p]; cbn; repeat split; try discriminate;
    by apply raw_hex_free_of_space.
Qed.

(** [hex] is one-to-one. *)
Lemma hex_inj (n m : Z) : hex n = hex m -> n = m.
Proof.
  intros H. apply (f_equal HexString.to_Z) in H.
  unfold hex in H. by rewrite !HexString.to_Z_of_Z in H.
Qed.

Variable E : Collaborators.
Variable format_object : loc -> string.

(** X10: the representation of a client constructed with a ZooKeeper
    address, given as a text string, shows that address after [hosts=], not
    the [hosts] argument. *)
Theorem repr_shows_the_zookeeper_address (p : params) (w w' : world)
    (k : t) (z : string) (cls : pyclass) (id_self : Z) :
  zookeeper_hosts p = PyStr z ->
  __init__ E p w = (Returns k, w') ->
  __repr__ format_object cls id_self k
  = "<" ++ __module__ cls ++ "." ++ __name__ cls ++ " at " ++ hex id_self
    ++ " (hosts=" ++ z ++ ")>".
Proof.
  intros Hz Hrun.
  destruct (init_returns E p w w' k Hrun)
    as (h1 & _ & _ & _ & _ & _ & Hseed & _).
  unfold __repr__. rewrite Hseed, Hz. done.
Qed.

(** X11: the representation tells objects apart: two instances of one
    class with the same representation have the same [id], and their seed
    descriptions render to the same text. *)
Theorem repr_determines_identity (cls : pyclass) (id1 id2 : Z)
    (k1 k2 : t) :
  __repr__ format_object cls id1 k1 = __repr__ format_object cls id2 k2 ->
  id1 = id2
  /\ format_field format_object (_seed_hosts k1)
     = format_field format_object (_seed_hosts k2).
Proof.
  unfold __repr__. intros H.
  do 5 apply append_cancel_l in H.
  change (" (hosts=" ++ ?x) with (String " " ("(hosts=" ++ x)) in H.
  apply split_at_first in H as [Hid Hrest]; try apply hex_free_of_space.
  split; [by apply hex_inj|].
  apply append_cancel_l in Hrest. by apply append_cancel_r in Hrest.
Qed.

End ReprProofs.

(** ** The further properties at the test doubles *)

Lemma positional_is_keyword_witness :
  KafkaClient.bind_arguments [PyStr "kafka1:9092"; PyStr "zk1:2181"] ∅
  = KafkaClient.bind_arguments []
      (list_to_map
         (zip KafkaClient.signature.*1
            [PyStr "kafka1:9092"; PyStr "zk1:2181"])).
Proof.
  apply (positional_is_keyword [PyStr "kafka1:9092"; PyStr "zk1:2181"]).
  simpl; lia.
Defined.

Lemma explicit_default_is_omission_witness :
  KafkaClient.bind_arguments [PyStr "kafka1:9092"]
    (<["zookeeper_hosts" := PyNone]> ∅)
  = KafkaClient.bind_arguments [PyStr "kafka1:9092"] ∅.
Proof.
  apply (explicit_default_is_omission [PyStr "kafka1:9092"] ∅
           "zookeeper_hosts" PyNone).
  - simpl. left.
  - reflexivity.
Defined.

Lemma cluster_failure_propagates_witness :
  KafkaClient.__init__ Stub.failing_collaborators Stub.zk_params
    Stub.empty_world
  = (Raises (Raised "KafkaException"),
     {| heap := <[2%positive := ∅]> ∅;
        calls :=
          [Call_ThreadingHandler;
           Call_Cluster
             (KafkaClient.cluster_args Stub.zk_params (PyStr "")
                (PyInt 30000) (PyInt 10000) 2%positive)] |}).
Proof.
  apply (cluster_failure_propagates Stub.failing_collaborators
           Stub.zk_params Stub.empty_world 2%positive
           (<[2%positive := ∅]> ∅) (<[2%positive := ∅]> ∅)
           (Raised "KafkaException")).
  - vm_compute; reflexivity.
  - vm_compute; reflexivity.
Defined.

Lemma seed_hosts_fall_back_to_hosts_witness :
  KafkaClient.new Stub.collaborators [] Stub.one_option Stub.empty_world
  = (Returns Stub.one_option_client,
     (KafkaClient.new Stub.collaborators [] Stub.one_option
        Stub.empty_world).2)
  /\ KafkaClient._seed_hosts Stub.one_option_client = PyStr "127.0.0.1:9092".
Proof.
  split; [vm_compute; reflexivity|].
  destruct (seed_hosts_fall_back_to_hosts Stub.collaborators
              {| KafkaClient.hosts := PyStr "127.0.0.1:9092";
                 KafkaClient.zookeeper_hosts := PyNone;
                 KafkaClient.socket_timeout_ms := PyInt 30000;
                 KafkaClient.offsets_channel_socket_timeout_ms := PyInt 10000;
                 KafkaClient.exclude_internal_topics := PyBool true;
                 KafkaClient.source_address := PyStr "10.0.0.7" |}
              Stub.empty_world
              (KafkaClient.new Stub.collaborators [] Stub.one_option
                 Stub.empty_world).2
              Stub.one_option_client) as [Hfall _].
  - vm_compute; reflexivity.
  - apply Hfall. reflexivity.
Defined.

Lemma client_keeps_what_the_cluster_got_witness :
  exists a,
    last (calls (Stub.built Stub.zk_params)) = Some (Call_Cluster a)
    /\ Cluster.handler a = PyRef 2%positive
    /\ Cluster.socket_timeout_ms a = PyInt 30000
    /\ Cluster.offsets_channel_socket_timeout_ms a = PyInt 10000
    /\ Cluster.source_address a = PyStr "".
Proof.
  apply (client_keeps_what_the_cluster_got Stub.collaborators Stub.zk_params
           Stub.empty_world (Stub.built Stub.zk_params) Stub.zk_client).
  vm_compute; reflexivity.
Defined.

Lemma update_goes_to_the_constructed_cluster_witness :
  exists a h1,
    Cluster_new Stub.collaborators a h1
    = (Returns 5%positive, heap (Stub.built Stub.zk_params))
    /\ calls (Stub.refreshed Stub.zk_params Stub.zk_client)
       = [Call_ThreadingHandler; Call_Cluster a;
          Call_method 5%positive "update" [] []]
    /\ heap (Stub.refreshed Stub.zk_params Stub.zk_client)
       = (Cluster_update Stub.collaborators 5%positive [] []
            (heap (Stub.built Stub.zk_params))).2.
Proof.
  apply (update_goes_to_the_constructed_cluster Stub.collaborators
           Stub.zk_params Stub.empty_world (Stub.built Stub.zk_params)
           Stub.zk_client).
  vm_compute; reflexivity.
Defined.

Lemma repr_shows_the_zookeeper_address_witness :
  KafkaClient.__repr__ (fun _ => "") KafkaClient.class_ 140234567
    Stub.zk_client
  = "<pykafka.client.KafkaClient at 0x85bcf47 (hosts=zk1:2181/kafka)>".
Proof.
  apply (repr_shows_the_zookeeper_address Stub.collaborators (fun _ => "")
           Stub.zk_params Stub.empty_world (Stub.built Stub.zk_params)
           Stub.zk_client "zk1:2181/kafka" KafkaClient.class_ 140234567).
  - reflexivity.
  - vm_compute; reflexivity.
Defined.

Lemma repr_determines_identity_witness :
  KafkaClient.__repr__ (fun _ => "") KafkaClient.class_ 140234567
    Stub.zk_client
  = KafkaClient.__repr__ (fun _ => "") KafkaClient.class_ (140234560 + 7)
      Stub.zk_client
  /\ 140234567%Z = (140234560 + 7)%Z.
Proof.
  split; [vm_compute; reflexivity|].
  apply (repr_determines_identity (fun _ => "") KafkaClient.class_
           140234567 (140234560 + 7) Stub.zk_client Stub.zk_client).
  vm_compute; reflexivity.
Defined.
